(** * The [init] command of the archer CLI (internal/pkg/cli/init.go)

    A shallow embedding of [InitAppOpts] and of its phases [Prepare],
    [Ask], [Validate] and [Execute] (with [createProject], [createApp] and
    [deployEnv]).  Every collaborator of the command is reached through a
    Go interface, so a method of the command is a tree of collaborator
    calls: a node names the call that is made, and has one subtree per
    answer.  Running such a tree against an implementation of the
    collaborators yields the calls that were made, in order, each with its
    answer, and the value the method returns. *)

From Stdlib Require Import String List Bool Arith Lia.
From ExtLib Require Import Structures.Monad.
Import ListNotations.
Import MonadNotation.
Local Open Scope string_scope.
Local Open Scope monad_scope.

Set Implicit Arguments.

(** ** Errors *)

(** A non-nil Go [error].  The command tells three errors apart: the
    sentinel [errValueEmpty] (compared with [!=], that is by identity) and
    the two types looked for with [errors.As].  [errorString] stands for
    every other error a collaborator can hand back. *)
Inductive error : Type :=
| errValueEmpty
| ErrProjectAlreadyExists (projectName : string)
| ErrStackAlreadyExists (stackName : string)
| errorString (s : string)
| wrapError (format : string) (err : error)   (* fmt.Errorf with %w *)
| fmtError (format : string) (err : error).   (* fmt.Errorf with %v *)

Definition isErrProjectAlreadyExists (err : error) : bool :=
  match err with ErrProjectAlreadyExists _ => true | _ => false end.

Definition isErrStackAlreadyExists (err : error) : bool :=
  match err with ErrStackAlreadyExists _ => true | _ => false end.

(** [errors.As err target], with the target type given as a test: the chain
    of causes of [err] is walked until an error of the target type shows.
    Only an error built with the verb [%w] has a cause. *)
Fixpoint As_chain (target : error -> bool) (err : error) : bool :=
  target err ||
  match err with
  | wrapError _ inner => As_chain target inner
  | _ => false
  end.

Definition errors_As (err : option error) (target : error -> bool) : bool :=
  match err with
  | None => false
  | Some e => As_chain target e
  end.

(** [err != errValueEmpty] *)
Definition is_errValueEmpty (err : error) : bool :=
  match err with errValueEmpty => true | _ => false end.

(** ** Data of package archer *)

(** The structs of package archer, with the fields init.go writes or
    reads.  Go hands them around by pointer; the command reads through the
    pointers it is given and never meets a nil one, so a pointer is the
    value it points to. *)
Module archer.

Module Project.
Record t : Type := { Name : string }.
End Project.

Module Environment.
Record t : Type :=
  { Project : string; Name : string; PublicLoadBalancer : bool }.
End Environment.

Module WorkspaceSummary.
Record t : Type := { ProjectName : string }.
End WorkspaceSummary.

(** The value of [manifest.Create] is used through its method [Marshal]
    alone: the object is what that method returns. *)
Module Manifest.
Record t : Type := { Marshal : list Byte.byte * option error }.
End Manifest.

End archer.

Definition defaultEnvironmentName : string := "test".

(** Declarations the file uses and does not hold: the two name rules of
    package cli, and the one template kind of package manifest
    ([manifest.LoadBalancedWebApplication]). *)
Class Decls : Type :=
  { validateProjectName : string -> option error;
    validateApplicationName : string -> option error;
    LoadBalancedWebApplication : string }.

(** ** InitAppOpts *)

Record InitAppOpts : Type :=
  { Project : string;
    AppName : string;
    AppType : string;
    ShouldDeploy : bool;
    ShouldSkipDeploy : bool;
    existingProjects : list string }.

(** Assignments through the receiver [opts *InitAppOpts]. *)
Definition set_Project (v : string) (opts : InitAppOpts) : InitAppOpts :=
  {| Project := v; AppName := AppName opts; AppType := AppType opts;
     ShouldDeploy := ShouldDeploy opts;
     ShouldSkipDeploy := ShouldSkipDeploy opts;
     existingProjects := existingProjects opts |}.

Definition set_AppName (v : string) (opts : InitAppOpts) : InitAppOpts :=
  {| Project := Project opts; AppName := v; AppType := AppType opts;
     ShouldDeploy := ShouldDeploy opts;
     ShouldSkipDeploy := ShouldSkipDeploy opts;
     existingProjects := existingProjects opts |}.

Definition set_AppType (v : string) (opts : InitAppOpts) : InitAppOpts :=
  {| Project := Project opts; AppName := AppName opts; AppType := v;
     ShouldDeploy := ShouldDeploy opts;
     ShouldSkipDeploy := ShouldSkipDeploy opts;
     existingProjects := existingProjects opts |}.

Definition set_ShouldDeploy (v : bool) (opts : InitAppOpts) : InitAppOpts :=
  {| Project := Project opts; AppName := AppName opts;
     AppType := AppType opts; ShouldDeploy := v;
     ShouldSkipDeploy := ShouldSkipDeploy opts;
     existingProjects := existingProjects opts |}.

Definition set_existingProjects (v : list string) (opts : InitAppOpts)
  : InitAppOpts :=
  {| Project := Project opts; AppName := AppName opts;
     AppType := AppType opts; ShouldDeploy := ShouldDeploy opts;
     ShouldSkipDeploy := ShouldSkipDeploy opts;
     existingProjects := v |}.

(** ** Collaborator calls *)

(** One constructor per method the command calls on a field of
    [InitAppOpts] ([ws], [projStore], [envStore], [envDeployer],
    [prompter], [prog]) and per function of another package. *)
Inductive call : Type :=
| ws_Summary
| ws_Create (projectName : string)
| ws_WriteManifest (blob : list Byte.byte) (appName : string)
| projStore_ListProjects
| projStore_CreateProject (p : archer.Project.t)
| envStore_ListEnvironments (projectName : string)
| envStore_CreateEnvironment (env : archer.Environment.t)
| envDeployer_DeployEnvironment (env : archer.Environment.t)
| envDeployer_WaitForEnvironmentCreation (env : archer.Environment.t)
| prompter_Get (message help : string) (validator : string -> option error)
| prompter_SelectOne (message help : string) (options : list string)
| prompter_Confirm (message help : string)
| prog_Start (label : string)
| prog_Stop (label : string)
| manifest_Create (appName appType : string)
| fmt_Printf (text : string).

(** What a call gives back: Go's result list, [nil] error as [None]. *)
Definition resp (c : call) : Type :=
  match c with
  | ws_Summary => archer.WorkspaceSummary.t * option error
  | ws_Create _ => option error
  | ws_WriteManifest _ _ => option error
  | projStore_ListProjects => list archer.Project.t * option error
  | projStore_CreateProject _ => option error
  | envStore_ListEnvironments _ => list archer.Environment.t * option error
  | envStore_CreateEnvironment _ => option error
  | envDeployer_DeployEnvironment _ => option error
  | envDeployer_WaitForEnvironmentCreation _ => option error
  | prompter_Get _ _ _ => string * option error
  | prompter_SelectOne _ _ _ => string * option error
  | prompter_Confirm _ _ => bool * option error
  | prog_Start _ => unit
  | prog_Stop _ => unit
  | manifest_Create _ _ => archer.Manifest.t * option error
  | fmt_Printf _ => unit
  end.

(** A method body: it returns, or makes a call and goes on with the
    answer. *)
Inductive proc (A : Type) : Type :=
| Ret (a : A)
| Do (c : call) (k : resp c -> proc A).

Arguments Ret {A} a.
Arguments Do {A} c k.

Fixpoint proc_bind {A B : Type} (p : proc A) (f : A -> proc B) : proc B :=
  match p with
  | Ret a => f a
  | Do c k => Do c (fun r => proc_bind (k r) f)
  end.

#[export] Instance Monad_proc : Monad proc :=
  { ret := @Ret; bind := @proc_bind }.

Definition perform (c : call) : proc (resp c) := Do c Ret.

(** ** Running a method against the collaborators *)

(** A call that was made, with its answer. *)
Record entry : Type := Entry { called : call; answer : resp called }.

(** The collaborators: they answer every call, from a state [W] of their
    own (the registry's content, the user's next keystrokes, ...). *)
Definition handler (W : Type) : Type := forall c : call, W -> resp c * W.

Record outcome (W A : Type) : Type :=
  { log : list entry; result : A; world : W }.

Fixpoint run {W A : Type} (h : handler W) (p : proc A) (w : W)
  : outcome W A :=
  match p with
  | Ret a => {| log := []; result := a; world := w |}
  | Do c k =>
      let (r, w1) := h c w in
      let o := run h (k r) w1 in
      {| log := Entry c r :: log o; result := result o; world := world o |}
  end.

(** The calls of a log, without the answers. *)
Definition calls (l : list entry) : list call := map called l.

(** ** The methods of InitAppOpts *)

(** [if err := c; err != nil { return err }] followed by [k]. *)
Definition orReturn (c k : proc (option error)) : proc (option error) :=
  err <- c ;;
  match err with
  | Some e => ret (Some e)
  | None => k
  end.

Notation "'check' c ;; k" := (orReturn c k)
  (at level 61, c at next level, right associativity) : monad_scope.

Definition newline : string := String (Ascii.ascii_of_nat 10) EmptyString.

Section Methods.

Context {D : Decls}.

Definition projectQuestion (opts : InitAppOpts)
  : proc (InitAppOpts * option error) :=
  if (0 <? length (existingProjects opts))%nat then
    '(projectName, err) <-
      perform (prompter_SelectOne
        "Which project should we use?"
        "Choose a project to create a new application in. Applications in the same project share the same VPC, ECS Cluster and are discoverable via service discovery"
        (existingProjects opts)) ;;
    match err with
    | Some e =>
        ret (opts, Some (wrapError "failed to get project selection: %w" e))
    | None => ret (set_Project projectName opts, None)
    end
  else
    '(projectName, err) <-
      perform (prompter_Get
        "What is your project's name?"
        "Applications under the same project share the same VPC and ECS Cluster and are discoverable via service discovery."
        validateProjectName) ;;
    match err with
    | Some e =>
        ret (opts, Some (wrapError "failed to get project name: %w" e))
    | None => ret (set_Project projectName opts, None)
    end.

(** Ask: the three questions, each for a field that is still empty; the
    first prompt that fails ends Ask with its error. *)
Definition Ask (opts : InitAppOpts) : proc (InitAppOpts * option error) :=
  '(opts, err) <-
    (if Project opts =? "" then projectQuestion opts
     else ret (opts, None)) ;;
  match err with
  | Some e => ret (opts, Some e)
  | None =>
      '(opts, err) <-
        (if AppName opts =? "" then
           '(name, err) <-
             perform (prompter_Get
               "What is your application's name?"
               "Collection of AWS services to achieve a business capability. Must be unique within a project."
               validateApplicationName) ;;
           match err with
           | Some e =>
               ret (opts,
                    Some (wrapError "failed to get application name: %w" e))
           | None => ret (set_AppName name opts, None)
           end
         else ret (opts, None)) ;;
      match err with
      | Some e => ret (opts, Some e)
      | None =>
          if AppType opts =? "" then
            '(t, err) <-
              perform (prompter_SelectOne
                "Which template would you like to use?"
                "Pre-defined infrastructure templates."
                [LoadBalancedWebApplication]) ;;
            match err with
            | Some e =>
                ret (opts,
                     Some (wrapError "failed to get template selection: %w" e))
            | None => ret (set_AppType t opts, None)
            end
          else ret (opts, None)
      end
  end.

Definition Validate (opts : InitAppOpts) : option error :=
  let appName :=
    match validateApplicationName (AppName opts) with
    | Some err =>
        if negb (is_errValueEmpty err)
        then Some (fmtError "application name invalid: %v" err)
        else None
    | None => None
    end in
  match validateProjectName (Project opts) with
  | Some err =>
      if negb (is_errValueEmpty err)
      then Some (fmtError "project name invalid: %v" err)
      else appName
  | None => appName
  end.

(** The loop of Prepare over the listed projects. *)
Definition projectNames (ps : list archer.Project.t) : list string :=
  fold_left (fun names p => (names ++ [archer.Project.Name p])%list) ps [].

Definition Prepare (opts : InitAppOpts) : proc InitAppOpts :=
  if negb (Project opts =? "") then ret opts
  else
    '(summary, err) <- perform ws_Summary ;;
    match err with
    | None =>
        ret (set_Project (archer.WorkspaceSummary.ProjectName summary) opts)
    | Some _ =>
        '(listed, _) <- perform projStore_ListProjects ;;
        ret (set_existingProjects (projectNames listed) opts)
    end.

Definition createApp (opts : InitAppOpts) : proc (option error) :=
  '(m, err) <- perform (manifest_Create (AppName opts) (AppType opts)) ;;
  match err with
  | Some e => ret (Some (wrapError "failed to generate a manifest %w" e))
  | None =>
      let (manifestBytes, err) := archer.Manifest.Marshal m in
      match err with
      | Some e =>
          ret (Some (wrapError "failed to marshal the manifest file %w" e))
      | None => perform (ws_WriteManifest manifestBytes (AppName opts))
      end
  end.

Definition createProject (opts : InitAppOpts) : proc (option error) :=
  err <- perform (projStore_CreateProject
                    {| archer.Project.Name := Project opts |}) ;;
  if negb (errors_As err isErrProjectAlreadyExists) then ret err
  else ret None.

(** The environment deployEnv builds (lines 218-222).  It is built once,
    and the three deployment steps are given the pointer to it; they read
    it. *)
Definition testEnvironment (opts : InitAppOpts) : archer.Environment.t :=
  {| archer.Environment.Project := Project opts;
     archer.Environment.Name := defaultEnvironmentName;
     archer.Environment.PublicLoadBalancer := true |}.

Definition deployEnv (opts : InitAppOpts) : proc (option error) :=
  if ShouldSkipDeploy opts then ret None
  else
    '(existingEnvs, _) <-
      perform (envStore_ListEnvironments (Project opts)) ;;
    if (0 <? length existingEnvs)%nat then ret None
    else
      '(deployEnv, err) <-
        perform (prompter_Confirm
          "Would you like to set up a test environment?"
          "You can deploy your app into your test environment.") ;;
      if negb deployEnv then ret None
      else
        let env := testEnvironment opts in
        perform (prog_Start "Preparing deployment...") ;;
        err <- perform (envDeployer_DeployEnvironment env) ;;
        match err with
        | Some e =>
            if errors_As (Some e) isErrStackAlreadyExists then
              perform (prog_Stop "Done!") ;;
              perform (fmt_Printf
                ("The environment " ++ archer.Environment.Name env
                 ++ " already exists under project " ++ Project opts
                 ++ "." ++ newline)) ;;
              ret None
            else
              perform (prog_Stop "Error!") ;;
              ret (Some e)
        | None =>
            perform (prog_Stop "Done!") ;;
            perform (prog_Start "Deploying env...") ;;
            err <- perform (envDeployer_WaitForEnvironmentCreation env) ;;
            match err with
            | Some e => perform (prog_Stop "Error!") ;; ret (Some e)
            | None =>
                err <- perform (envStore_CreateEnvironment env) ;;
                match err with
                | Some e => perform (prog_Stop "Error!") ;; ret (Some e)
                | None => perform (prog_Stop "Done!") ;; ret None
                end
            end
        end.

Definition Execute (opts : InitAppOpts) : proc (option error) :=
  check ret (validateProjectName (Project opts)) ;;
  check createProject opts ;;
  check perform (ws_Create (Project opts)) ;;
  check createApp opts ;;
  deployEnv opts.

End Methods.

(** ** Reading a log *)

(** The entries of a log seen through [view], in order. *)
Fixpoint collect {A B : Type} (view : A -> option B) (l : list A) : list B :=
  match l with
  | [] => []
  | x :: rest =>
      match view x with
      | Some b => b :: collect view rest
      | None => collect view rest
      end
  end.

(** The answer of the user, when the entry is the deploy confirmation. *)
Definition confirm_answer (x : entry) : option (bool * option error) :=
  match x with
  | Entry c r =>
      match c return resp c -> option (bool * option error) with
      | prompter_Confirm _ _ => fun r => Some r
      | _ => fun _ => None
      end r
  end.

(** The three deployment steps: begin-deploy, wait-for-completion and the
    registration of the environment; [step] keeps such an entry, with the
    error it gave back. *)
Definition step (x : entry) : option (call * option error) :=
  match x with
  | Entry c r =>
      match c return resp c -> option (call * option error) with
      | envDeployer_DeployEnvironment _ => fun r => Some (c, r)
      | envDeployer_WaitForEnvironmentCreation _ => fun r => Some (c, r)
      | envStore_CreateEnvironment _ => fun r => Some (c, r)
      | _ => fun _ => None
      end r
  end.

Definition confirm_answers (l : list entry) : list (bool * option error) :=
  collect confirm_answer l.

Definition steps (l : list entry) : list (call * option error) :=
  collect step l.

(** The user said yes to the deploy confirmation. *)
Definition accepted (l : list entry) : bool :=
  existsb fst (confirm_answers l).

Definition is_Confirm (c : call) : bool :=
  match c with prompter_Confirm _ _ => true | _ => false end.

Definition is_deployer (c : call) : bool :=
  match c with
  | envDeployer_DeployEnvironment _ => true
  | envDeployer_WaitForEnvironmentCreation _ => true
  | _ => false
  end.

Definition is_WaitForEnvironmentCreation (c : call) : bool :=
  match c with envDeployer_WaitForEnvironmentCreation _ => true | _ => false end.

Definition is_CreateEnvironment (c : call) : bool :=
  match c with envStore_CreateEnvironment _ => true | _ => false end.

(** No call of the log satisfies [p]. *)
Definition never (p : call -> bool) (l : list entry) : bool :=
  forallb (fun c => negb (p c)) (calls l).

(** ** The runs of deployEnv *)

Definition confirmDeploy : call :=
  prompter_Confirm "Would you like to set up a test environment?"
                   "You can deploy your app into your test environment.".

Definition alreadyExistsText (opts : InitAppOpts) : string :=
  "The environment " ++ defaultEnvironmentName
  ++ " already exists under project " ++ Project opts ++ "." ++ newline.

(** The calls deployEnv makes up to and including begin-deploy, once the
    user has said yes. *)
Definition deployPrefix (opts : InitAppOpts) (lerr cerr err : option error)
  : list entry :=
  [ Entry (envStore_ListEnvironments (Project opts)) ([], lerr);
    Entry confirmDeploy (true, cerr);
    Entry (prog_Start "Preparing deployment...") tt;
    Entry (envDeployer_DeployEnvironment (testEnvironment opts)) err ].

(** Every run of deployEnv follows one of eight paths: the log it leaves
    and the error it returns. *)
Inductive deployEnv_path (opts : InitAppOpts)
  : list entry -> option error -> Prop :=
| path_skip :
    ShouldSkipDeploy opts = true ->
    deployEnv_path opts [] None
| path_existing envs lerr :
    ShouldSkipDeploy opts = false ->
    (0 <? length envs)%nat = true ->
    deployEnv_path opts
      [ Entry (envStore_ListEnvironments (Project opts)) (envs, lerr) ] None
| path_declined lerr cerr :
    ShouldSkipDeploy opts = false ->
    deployEnv_path opts
      [ Entry (envStore_ListEnvironments (Project opts)) ([], lerr);
        Entry confirmDeploy (false, cerr) ] None
| path_stack_exists lerr cerr e :
    ShouldSkipDeploy opts = false ->
    errors_As (Some e) isErrStackAlreadyExists = true ->
    deployEnv_path opts
      (deployPrefix opts lerr cerr (Some e)
       ++ [ Entry (prog_Stop "Done!") tt;
            Entry (fmt_Printf (alreadyExistsText opts)) tt ])%list
      None
| path_deploy_failed lerr cerr e :
    ShouldSkipDeploy opts = false ->
    errors_As (Some e) isErrStackAlreadyExists = false ->
    deployEnv_path opts
      (deployPrefix opts lerr cerr (Some e)
       ++ [ Entry (prog_Stop "Error!") tt ])%list
      (Some e)
| path_wait_failed lerr cerr e :
    ShouldSkipDeploy opts = false ->
    deployEnv_path opts
      (deployPrefix opts lerr cerr None
       ++ [ Entry (prog_Stop "Done!") tt;
            Entry (prog_Start "Deploying env...") tt;
            Entry (envDeployer_WaitForEnvironmentCreation
                     (testEnvironment opts)) (Some e);
            Entry (prog_Stop "Error!") tt ])%list
      (Some e)
| path_register_failed lerr cerr e :
    ShouldSkipDeploy opts = false ->
    deployEnv_path opts
      (deployPrefix opts lerr cerr None
       ++ [ Entry (prog_Stop "Done!") tt;
            Entry (prog_Start "Deploying env...") tt;
            Entry (envDeployer_WaitForEnvironmentCreation
                     (testEnvironment opts)) None;
            Entry (envStore_CreateEnvironment (testEnvironment opts))
                  (Some e);
            Entry (prog_Stop "Error!") tt ])%list
      (Some e)
| path_deployed lerr cerr :
    ShouldSkipDeploy opts = false ->
    deployEnv_path opts
      (deployPrefix opts lerr cerr None
       ++ [ Entry (prog_Stop "Done!") tt;
            Entry (prog_Start "Deploying env...") tt;
            Entry (envDeployer_WaitForEnvironmentCreation
                     (testEnvironment opts)) None;
            Entry (envStore_CreateEnvironment (testEnvironment opts)) None;
            Entry (prog_Stop "Done!") tt ])%list
      None.

(** ** Properties of an outcome of deployEnv *)

Section Outcomes.

Variable W : Type.
Variable opts : InitAppOpts.
Variable o : outcome W (option error).

Let env := testEnvironment opts.
Let begin_deploy := envDeployer_DeployEnvironment env.
Let wait := envDeployer_WaitForEnvironmentCreation env.
Let register := envStore_CreateEnvironment env.

(** Whatever step fails, its error is what deployEnv returns. *)
Definition step_failure_returned : Prop :=
  forall c e, In (c, Some e) (steps (log o)) -> result o = Some e.

(** The steps come as begin-deploy, wait, register; the first failure is
    the last step made, and its error is returned, but for a begin-deploy
    failure of type ErrStackAlreadyExists, which gives [nil]. *)
Definition steps_in_order : Prop :=
  (exists e,
      steps (log o) = [(begin_deploy, Some e)] /\
      result o = if errors_As (Some e) isErrStackAlreadyExists
                 then None else Some e)
  \/ (exists e,
      steps (log o) = [(begin_deploy, None); (wait, Some e)] /\
      result o = Some e)
  \/ (exists e,
      steps (log o) =
        [(begin_deploy, None); (wait, None); (register, Some e)] /\
      result o = Some e)
  \/ (steps (log o) =
        [(begin_deploy, None); (wait, None); (register, None)] /\
      result o = None).

(** deployEnv returned [nil] and neither asked the user nor called the
    deployer. *)
Definition short_circuit : Prop :=
  result o = None /\
  never is_Confirm (log o) = true /\
  never is_deployer (log o) = true.

(** The deployment stopped at begin-deploy, with success. *)
Definition absorbed : Prop :=
  result o = None /\
  never is_WaitForEnvironmentCreation (log o) = true /\
  never is_CreateEnvironment (log o) = true.

End Outcomes.

(** A name passes its rule, or fails it with errValueEmpty. *)
Definition passes_or_empty (v : option error) : Prop :=
  v = None \/ v = Some errValueEmpty.

(** The outcome [o], with [f] applied to what was returned. *)
Definition map_result {W A B : Type} (f : A -> B) (o : outcome W A)
  : outcome W B :=
  {| log := log o; result := f (result o); world := world o |}.

(** ** Sample collaborators *)

(** Collaborators that answer by the call alone; their state counts the
    calls they answered. *)
Definition script : Type := forall c : call, resp c.

Definition scripted (s : script) : handler nat :=
  fun c n => (s c, S n).

(** Nothing exists yet, nothing fails, and the user types "acme", "api"
    and says no. *)
Definition calm : script :=
  fun c =>
    match c return resp c with
    | ws_Summary =>
        ({| archer.WorkspaceSummary.ProjectName := "" |},
         Some (errorString "no workspace"))
    | ws_Create _ => None
    | ws_WriteManifest _ _ => None
    | projStore_ListProjects => ([], None)
    | projStore_CreateProject _ => None
    | envStore_ListEnvironments _ => ([], None)
    | envStore_CreateEnvironment _ => None
    | envDeployer_DeployEnvironment _ => None
    | envDeployer_WaitForEnvironmentCreation _ => None
    | prompter_Get "What is your project's name?" _ _ => ("acme", None)
    | prompter_Get _ _ _ => ("api", None)
    | prompter_SelectOne _ _ options => (hd "" options, None)
    | prompter_Confirm _ _ => (false, None)
    | prog_Start _ => tt
    | prog_Stop _ => tt
    | manifest_Create _ _ =>
        ({| archer.Manifest.Marshal := ([], None) |}, None)
    | fmt_Printf _ => tt
    end.

(** The user says yes. *)
Definition eager : script :=
  fun c =>
    match c return resp c with
    | prompter_Confirm _ _ => (true, None)
    | c => calm c
    end.

(** The user says yes and the stack is already there. *)
Definition stack_exists : script :=
  fun c =>
    match c return resp c with
    | envDeployer_DeployEnvironment _ =>
        Some (wrapError "deploy: %w" (ErrStackAlreadyExists "acme-test"))
    | c => eager c
    end.

(** The user says yes and the provisioning fails while it is waited for. *)
Definition wait_fails : script :=
  fun c =>
    match c return resp c with
    | envDeployer_WaitForEnvironmentCreation _ =>
        Some (errorString "stack creation failed")
    | c => eager c
    end.

(** The prompt breaks on the deploy confirmation. *)
Definition broken_prompt : script :=
  fun c =>
    match c return resp c with
    | prompter_Confirm _ _ => (false, Some (errorString "interrupt"))
    | c => calm c
    end.

(** The project has an environment already. *)
Definition has_environment : script :=
  fun c =>
    match c return resp c with
    | envStore_ListEnvironments p =>
        ([ {| archer.Environment.Project := p;
              archer.Environment.Name := "test";
              archer.Environment.PublicLoadBalancer := true |} ], None)
    | c => eager c
    end.

(** The project is registered already. *)
Definition project_exists : script :=
  fun c =>
    match c return resp c with
    | projStore_CreateProject p =>
        Some (ErrProjectAlreadyExists (archer.Project.Name p))
    | c => calm c
    end.

(** The registry holds two projects; there is no workspace yet. *)
Definition registered : script :=
  fun c =>
    match c return resp c with
    | projStore_ListProjects =>
        ([ {| archer.Project.Name := "acme" |};
           {| archer.Project.Name := "shop" |} ], None)
    | c => calm c
    end.

Definition is_letter (a : Ascii.ascii) : bool :=
  let n := Ascii.nat_of_ascii a in
  ((65 <=? n) && (n <=? 90) || (97 <=? n) && (n <=? 122))%nat.

Definition is_digit (a : Ascii.ascii) : bool :=
  let n := Ascii.nat_of_ascii a in ((48 <=? n) && (n <=? 57))%nat.

Definition is_hyphen (a : Ascii.ascii) : bool :=
  (Ascii.nat_of_ascii a =? 45)%nat.

Fixpoint all_chars (p : Ascii.ascii -> bool) (s : string) : bool :=
  match s with
  | EmptyString => true
  | String a rest => p a && all_chars p rest
  end.

(** Modelled from the spec: the name rule of package cli, whose code is in
    another file.  A name is non-empty and is an identifier fit for
    infrastructure and DNS names; the empty name is rejected with
    [errValueEmpty], every other violation with another error. *)
Definition basicNameValidation (s : string) : option error :=
  match s with
  | EmptyString => Some errValueEmpty
  | String first _ =>
      if (255 <? String.length s)%nat
      then Some (errorString "value must not exceed 255 characters")
      else if is_letter first
                && all_chars (fun a => is_letter a || is_digit a || is_hyphen a) s
      then None
      else Some (errorString "value must start with a letter and contain only letters, numbers, and hyphens")
  end.

Definition basicDecls : Decls :=
  {| validateProjectName := basicNameValidation;
     validateApplicationName := basicNameValidation;
     LoadBalancedWebApplication := "Load Balanced Web App" |}.

(** Requests: everything given on the command line, and nothing given. *)
Definition acme : InitAppOpts :=
  {| Project := "acme"; AppName := "api";
     AppType := "Load Balanced Web App";
     ShouldDeploy := false; ShouldSkipDeploy := false;
     existingProjects := [] |}.

Definition blank : InitAppOpts :=
  {| Project := ""; AppName := ""; AppType := "";
     ShouldDeploy := false; ShouldSkipDeploy := false;
     existingProjects := [] |}.

(** ** The command, before Execute *)

(** The end of PersistentPreRunE in BuildInitCmd (lines 282-283), once the
    collaborators are in place: [opts.Prepare()], then
    [return opts.Ask()]. *)
Definition preRun {D : Decls} (opts : InitAppOpts)
  : proc (InitAppOpts * option error) :=
  opts <- Prepare opts ;;
  Ask opts.

(** ** More readings of a log *)

(** The error of a text or choice prompt, when the entry is one. *)
Definition prompt_error (x : entry) : option (option error) :=
  match x with
  | Entry c r =>
      match c return resp c -> option (option error) with
      | prompter_Get _ _ _ => fun r => Some (snd r)
      | prompter_SelectOne _ _ _ => fun r => Some (snd r)
      | _ => fun _ => None
      end r
  end.

Definition prompt_errors (l : list entry) : list (option error) :=
  collect prompt_error l.

Definition is_prompt (c : call) : bool :=
  match c with
  | prompter_Get _ _ _ => true
  | prompter_SelectOne _ _ _ => true
  | _ => false
  end.

(** A text or choice prompt that succeeded gave a non-empty answer. *)
Definition answered (x : entry) : bool :=
  match x with
  | Entry c r =>
      match c return resp c -> bool with
      | prompter_Get _ _ _ =>
          fun r => match snd r with
                   | None => negb (fst r =? "")
                   | Some _ => true
                   end
      | prompter_SelectOne _ _ _ =>
          fun r => match snd r with
                   | None => negb (fst r =? "")
                   | Some _ => true
                   end
      | _ => fun _ => true
      end r
  end.

(** The two questions of projectQuestion, by their messages. *)
Definition is_project_question (c : call) : bool :=
  match c with
  | prompter_Get message _ _ => message =? "What is your project's name?"
  | prompter_SelectOne message _ _ => message =? "Which project should we use?"
  | _ => false
  end.

Definition is_ListProjects (c : call) : bool :=
  match c with projStore_ListProjects => true | _ => false end.

(** The calls on the environment store, the deployer and the deploy
    confirmation: all that deployEnv does to the outside. *)
Definition is_deployment (c : call) : bool :=
  match c with
  | envStore_ListEnvironments _ => true
  | envStore_CreateEnvironment _ => true
  | envDeployer_DeployEnvironment _ => true
  | envDeployer_WaitForEnvironmentCreation _ => true
  | prompter_Confirm _ _ => true
  | _ => false
  end.


(** The stage of Execute a call belongs to: the four calls made before
    deployEnv, in their order, and 4 for any other call. *)
Definition stage_rank (c : call) : nat :=
  match c with
  | projStore_CreateProject _ => 0
  | ws_Create _ => 1
  | manifest_Create _ _ => 2
  | ws_WriteManifest _ _ => 3
  | _ => 4
  end.

(** The calls of Execute that come before deployEnv. *)
Definition early (l : list entry) : bool :=
  forallb (fun c => (stage_rank c <? 4)%nat) (calls l).

(** The entry is a stage of Execute made before deployEnv, and it
    succeeded: its error is [nil] or, for the project, an absorbed
    ErrProjectAlreadyExists. *)
Definition stage_passed (x : entry) : option nat :=
  match x with
  | Entry c r =>
      match c return resp c -> option nat with
      | projStore_CreateProject _ =>
          fun r => match r with
                   | None => Some 0
                   | Some _ =>
                       if errors_As r isErrProjectAlreadyExists
                       then Some 0 else None
                   end
      | ws_Create _ =>
          fun r => match r with None => Some 1 | Some _ => None end
      | manifest_Create _ _ =>
          fun r => match snd r, snd (archer.Manifest.Marshal (fst r)) with
                   | None, None => Some 2
                   | _, _ => None
                   end
      | ws_WriteManifest _ _ =>
          fun r => match r with None => Some 3 | Some _ => None end
      | _ => fun _ => None
      end r
  end.



(** The progress indicator: [true] with the label of a Start, [false]
    with the label of a Stop. *)
Definition spin (x : entry) : option (bool * string) :=
  match called x with
  | prog_Start label => Some (true, label)
  | prog_Stop label => Some (false, label)
  | _ => None
  end.

Definition spinner (l : list entry) : list (bool * string) :=
  collect spin l.

(** Every Start is followed by its Stop before anything else is shown. *)
Fixpoint bracketed (l : list (bool * string)) : bool :=
  match l with
  | [] => true
  | (true, _) :: (false, _) :: rest => bracketed rest
  | _ => false
  end.

(** An error under [%w] wrappers, the outermost format first. *)
Definition wrapped (formats : list string) (cause : error) : error :=
  fold_right wrapError cause formats.

(** The messages Ask wraps a prompt's error in. *)
Definition askFormats : list string :=
  [ "failed to get project selection: %w";
    "failed to get project name: %w";
    "failed to get application name: %w";
    "failed to get template selection: %w" ].

(** The user answers every text or choice prompt with "acme" and says no
    to the deploy confirmation; nothing else differs from [calm]. *)
Definition typing : script :=
  fun c =>
    match c return resp c with
    | prompter_Get _ _ _ => ("acme", None)
    | prompter_SelectOne _ _ _ => ("acme", None)
    | c => calm c
    end.

(** The workspace is bound to the project "shop". *)
Definition bound : script :=
  fun c =>
    match c return resp c with
    | ws_Summary => ({| archer.WorkspaceSummary.ProjectName := "shop" |}, None)
    | c => calm c
    end.

(** The workspace has a summary that names no project. *)
Definition unbound : script :=
  fun c =>
    match c return resp c with
    | ws_Summary => ({| archer.WorkspaceSummary.ProjectName := "" |}, None)
    | c => calm c
    end.

(** ** Two readings of Prepare and deployEnv that the code does not follow *)

(** The projects a call of ListProjects gave, with its error. *)
Definition listing_answer (x : entry)
  : option (list archer.Project.t * option error) :=
  match x with
  | Entry c r =>
      match c return resp c -> option (list archer.Project.t * option error)
      with
      | projStore_ListProjects => fun r => Some r
      | _ => fun _ => None
      end r
  end.

(** With no project given, the registry is listed unless the summary
    succeeds and names a project. *)
Definition listed_unless_bound (W : Type) (h : handler W) (w : W)
           (opts : InitAppOpts) : Prop :=
  Project opts = "" ->
  forall summary err w1,
    h ws_Summary w = ((summary, err), w1) ->
    (err = None /\ archer.WorkspaceSummary.ProjectName summary <> "")
    \/ In projStore_ListProjects (calls (log (run h (Prepare opts) w))).

(** A listing that fails stages no project. *)
Definition failed_listing_stages_none (W : Type) (o : outcome W InitAppOpts)
  : Prop :=
  forall listed e,
    In (listed, Some e) (collect listing_answer (log o)) ->
    existingProjects (result o) = [].

(** A deploy confirmation that fails counts as a "no", whatever answer
    comes with the error. *)
Definition prompt_error_means_no (W : Type) (o : outcome W (option error))
  : Prop :=
  forall b e,
    In (b, Some e) (confirm_answers (log o)) ->
    result o = None /\ never is_deployer (log o) = true.

(** The registry fails while it lists, and hands back the one project it
    had read. *)
Definition stale_listing : script :=
  fun c =>
    match c return resp c with
    | projStore_ListProjects =>
        ([ {| archer.Project.Name := "acme" |} ],
         Some (errorString "throttled"))
    | c => calm c
    end.

(** The prompt breaks on the deploy confirmation, after the user's yes. *)
Definition broken_after_yes : script :=
  fun c =>
    match c return resp c with
    | prompter_Confirm _ _ => (true, Some (errorString "interrupt"))
    | c => calm c
    end.

(** ** Running, step by step *)

(** Running [p] and then [f]: the log of [p], then the log of [f]. *)
Lemma run_bind (W A B : Type) (h : handler W) (p : proc A) (f : A -> proc B)
      (w : W) :
  run h (proc_bind p f) w =
  let o1 := run h p w in
  let o2 := run h (f (result o1)) (world o1) in
  {| log := log o1 ++ log o2; result := result o2; world := world o2 |}.
Proof.
  revert w. induction p as [a | c k IH]; intros w; simpl.
  - destruct (run h (f a) w); reflexivity.
  - destruct (h c w) as [r w1]. rewrite IH. reflexivity.
Qed.

(** A stage that fails ends the method with its error; the stages after
    it make no call. *)
Lemma run_orReturn_failed (W : Type) (h : handler W)
      (c k : proc (option error)) (w : W) (e : error) :
  result (run h c w) = Some e ->
  run h (orReturn c k) w = run h c w.
Proof.
  intros Hfail. unfold orReturn. cbn. rewrite run_bind. cbn.
  rewrite Hfail. cbn. rewrite app_nil_r.
  destruct (run h c w); cbn in *. subst. reflexivity.
Qed.

(** Scenario E of the specification, on Execute: the user accepts, the
    wait fails; Execute returns that error and registers no environment. *)
Example Execute_wait_fails :
  result (run (scripted wait_fails) (@Execute basicDecls acme) 0)
  = Some (errorString "stack creation failed") /\
  never is_CreateEnvironment
        (log (run (scripted wait_fails) (@Execute basicDecls acme) 0)) = true.
Proof. split; reflexivity. Qed.

(** Case analysis on the answer to the next call of a run. *)
Ltac answer :=
  match goal with
  | |- context [?h ?c ?w] =>
      match type of h with
      | handler _ =>
          let r := fresh "r" in
          let w' := fresh "w" in
          destruct (h c w) as [r w'] eqn:?; cbn in r;
          lazymatch type of r with
          | unit => destruct r
          | prod _ _ => destruct r as [? ?]
          | _ => idtac
          end
      end
  end; cbn.

Lemma deployEnv_paths (W : Type) (h : handler W) (w : W) (opts : InitAppOpts) :
  deployEnv_path opts (log (run h (deployEnv opts) w))
                      (result (run h (deployEnv opts) w)).
Proof.
  unfold deployEnv.
  destruct (ShouldSkipDeploy opts) eqn:Hskip.
  - apply path_skip; assumption.
  - cbn. answer.
    destruct l as [| env0 envs]; cbn.
    2: { apply path_existing; [assumption | reflexivity]. }
    answer. destruct b; cbn.
    2: { apply path_declined; assumption. }
    answer. answer. destruct r as [e |].
    + destruct (As_chain isErrStackAlreadyExists e) eqn:Hab; cbn.
      * answer. answer. now apply path_stack_exists.
      * answer. now apply path_deploy_failed.
    + cbn. answer. answer. answer. destruct r as [e |]; cbn.
      * answer. now apply path_wait_failed.
      * answer. destruct r as [e |]; cbn.
        -- answer. now apply path_register_failed.
        -- answer. now apply path_deployed.
Qed.

(** Case analysis on the test of the next conditional of a run. *)
Ltac branch :=
  match goal with
  | |- context [if (?s =? "")%string then _ else _] => destruct (s =? "")%string
  | |- context [match ?x with Some _ => _ | None => _ end] =>
      is_var x; destruct x
  | |- context [match Datatypes.length ?l with 0 => _ | S _ => _ end] =>
      destruct l
  end; cbn.

(** Case analysis on the path a run of deployEnv took. *)
Ltac by_paths h w opts :=
  let P := fresh "P" in
  pose proof (deployEnv_paths h w opts) as P;
  destruct (run h (deployEnv opts) w) as [? ? ?];
  cbn [log result world] in *;
  destruct P; cbn in *.

(** ** deployEnv: order of the deployment steps *)

(** C1, as amended: once the user has accepted the deploy confirmation,
    the deployment steps of the run are begin-deploy, then
    wait-for-completion, then the registration of the environment, up to
    the first step that fails; the error of that step is returned, except
    that a begin-deploy failure of type ErrStackAlreadyExists returns
    [nil].  In particular a failed wait leaves the environment
    unregistered. *)
Theorem deployEnv_steps_in_order (W : Type) (h : handler W) (w : W)
        (opts : InitAppOpts) :
  accepted (log (run h (deployEnv opts) w)) = true ->
  steps_in_order opts (run h (deployEnv opts) w).
Proof.
  unfold steps_in_order. intros Hyes.
  by_paths h w opts; try discriminate.
  - left. exists e. split; [reflexivity |].
    cbn in H0. rewrite H0. reflexivity.
  - left. exists e. split; [reflexivity |].
    cbn in H0. rewrite H0. reflexivity.
  - right; left. exists e. split; reflexivity.
  - right; right; left. exists e. split; reflexivity.
  - right; right; right. split; reflexivity.
Qed.

Lemma deployEnv_steps_in_order_witness :
  accepted (log (run (scripted wait_fails) (deployEnv acme) 0)) = true /\
  steps_in_order acme (run (scripted wait_fails) (deployEnv acme) 0).
Proof.
  split.
  - reflexivity.
  - apply (@deployEnv_steps_in_order nat (scripted wait_fails) 0 acme).
    reflexivity.
Defined.

(** C1, as it is written, fails: with the stack already there, begin-deploy
    fails and deployEnv returns [nil], not the error of that step. *)
Lemma deployEnv_step_failure_not_returned :
  accepted (log (run (scripted stack_exists) (deployEnv acme) 0)) = true /\
  In (envDeployer_DeployEnvironment (testEnvironment acme),
      Some (wrapError "deploy: %w" (ErrStackAlreadyExists "acme-test")))
     (steps (log (run (scripted stack_exists) (deployEnv acme) 0))) /\
  result (run (scripted stack_exists) (deployEnv acme) 0) = None /\
  (step_failure_returned (run (scripted stack_exists) (deployEnv acme) 0)
   -> False).
Proof.
  split; [reflexivity |].
  split; [left; reflexivity |].
  split; [reflexivity |].
  intros H.
  specialize (H _ _ (or_introl eq_refl)). discriminate H.
Qed.

(** ** deployEnv: the two short circuits *)

(** C2: deployEnv returns [nil] at once, asking nothing and deploying
    nothing, (1) when ShouldSkipDeploy is set, whatever the registry
    holds, and then the registry is not listed (no call is made at all);
    (2) when the registry lists one environment or more for the project,
    whatever the two deploy flags are. *)
Theorem deployEnv_short_circuits (W : Type) (h : handler W) (w : W)
        (opts : InitAppOpts) :
  (ShouldSkipDeploy opts = true ->
   short_circuit (run h (deployEnv opts) w) /\
   log (run h (deployEnv opts) w) = []) /\
  ((0 <? length (fst (fst (h (envStore_ListEnvironments (Project opts)) w))))%nat
   = true ->
   short_circuit (run h (deployEnv opts) w)).
Proof.
  unfold short_circuit, deployEnv. split.
  - intros ->. cbn. repeat split.
  - intros Hlisted.
    destruct (ShouldSkipDeploy opts); [cbn; repeat split |].
    cbn. answer. cbn in Hlisted. rewrite Hlisted. cbn. repeat split.
Qed.

Lemma deployEnv_short_circuits_witness :
  short_circuit
    (run (scripted has_environment)
         (deployEnv (set_ShouldDeploy true acme)) 0).
Proof.
  apply (proj2 (@deployEnv_short_circuits nat (scripted has_environment) 0
                  (set_ShouldDeploy true acme))).
  reflexivity.
Defined.

(** ** deployEnv: a stack that is already there *)

(** C4: when begin-deploy fails with an error of type
    ErrStackAlreadyExists, deployEnv returns [nil] and the run calls
    neither wait-for-completion nor the registration of the environment;
    when it fails with any other error, deployEnv returns that error. *)
Theorem deployEnv_stack_already_exists (W : Type) (h : handler W) (w : W)
        (opts : InitAppOpts) (env : archer.Environment.t) (e : error) :
  In (envDeployer_DeployEnvironment env, Some e)
     (steps (log (run h (deployEnv opts) w))) ->
  (errors_As (Some e) isErrStackAlreadyExists = true ->
   absorbed (run h (deployEnv opts) w)) /\
  (errors_As (Some e) isErrStackAlreadyExists = false ->
   result (run h (deployEnv opts) w) = Some e).
Proof.
  unfold absorbed. intros Hfail.
  by_paths h w opts;
    repeat match goal with
           | H : _ \/ _ |- _ => destruct H
           | H : False |- _ => destruct H
           | H : (_, _) = (_, _) |- _ => inversion H; subst; clear H
           end.
  - split; [repeat split | congruence].
  - split; [congruence | reflexivity].
Qed.

Lemma deployEnv_stack_already_exists_witness :
  absorbed (run (scripted stack_exists) (deployEnv acme) 0).
Proof.
  apply (proj1 (@deployEnv_stack_already_exists nat (scripted stack_exists) 0
                  acme (testEnvironment acme)
                  (wrapError "deploy: %w" (ErrStackAlreadyExists "acme-test"))
                  (or_introl eq_refl))).
  reflexivity.
Defined.

(** ** deployEnv: a failing confirmation *)

(** C6, as amended: when the deploy confirmation comes back with an error
    and, with it, the answer [false] (the zero value a failing prompt hands
    back), the error is dropped: deployEnv returns [nil] as for a "no", and
    the deployer is not called. *)
Theorem deployEnv_ignores_prompt_error (W : Type) (h : handler W) (w : W)
        (opts : InitAppOpts) (e : error) :
  In (false, Some e) (confirm_answers (log (run h (deployEnv opts) w))) ->
  result (run h (deployEnv opts) w) = None /\
  never is_deployer (log (run h (deployEnv opts) w)) = true.
Proof.
  intros Hprompt.
  by_paths h w opts;
    repeat match goal with
           | H : _ \/ _ |- _ => destruct H
           | H : False |- _ => destruct H
           | H : (_, _) = (_, _) |- _ => inversion H; subst; clear H
           end.
  split; reflexivity.
Qed.

Lemma deployEnv_ignores_prompt_error_witness :
  In (false, Some (errorString "interrupt"))
     (confirm_answers (log (run (scripted broken_prompt) (deployEnv acme) 0)))
  /\ result (run (scripted broken_prompt) (deployEnv acme) 0) = None
  /\ never is_deployer (log (run (scripted broken_prompt) (deployEnv acme) 0))
     = true.
Proof.
  split.
  - left; reflexivity.
  - apply (@deployEnv_ignores_prompt_error nat (scripted broken_prompt) 0
             acme (errorString "interrupt")).
    left; reflexivity.
Defined.

(** C6, as it is written, fails: deployEnv never reads the error of the
    confirmation, the answer that comes with it decides.  A prompt that
    fails after a yes is a yes: the environment is deployed and
    registered. *)
Lemma deployEnv_prompt_error_with_yes :
  In (true, Some (errorString "interrupt"))
     (confirm_answers
        (log (run (scripted broken_after_yes) (deployEnv acme) 0))) /\
  never is_deployer
        (log (run (scripted broken_after_yes) (deployEnv acme) 0)) = false /\
  steps (log (run (scripted broken_after_yes) (deployEnv acme) 0)) =
  [ (envDeployer_DeployEnvironment (testEnvironment acme), None);
    (envDeployer_WaitForEnvironmentCreation (testEnvironment acme), None);
    (envStore_CreateEnvironment (testEnvironment acme), None) ] /\
  (prompt_error_means_no
     (run (scripted broken_after_yes) (deployEnv acme) 0) -> False).
Proof.
  split; [left; reflexivity |].
  split; [reflexivity |].
  split; [reflexivity |].
  intros Hno.
  destruct (Hno true (errorString "interrupt") (or_introl eq_refl))
    as [_ Hnever].
  discriminate Hnever.
Qed.

(** ** deployEnv: the environment that is deployed *)

(** C8: once the user has accepted, the deployment steps of the run are
    begin-deploy, wait-for-completion and registration (as far as the run
    gets, begin-deploy at least), each called with one and the same
    environment: that of the request's project, named "test", with a
    public load balancer. *)
Theorem deployEnv_test_environment (W : Type) (h : handler W) (w : W)
        (opts : InitAppOpts) :
  accepted (log (run h (deployEnv opts) w)) = true ->
  let env := {| archer.Environment.Project := Project opts;
                archer.Environment.Name := "test";
                archer.Environment.PublicLoadBalancer := true |} in
  exists n,
    map fst (steps (log (run h (deployEnv opts) w))) =
    firstn (S n) [ envDeployer_DeployEnvironment env;
                   envDeployer_WaitForEnvironmentCreation env;
                   envStore_CreateEnvironment env ].
Proof.
  intros Hyes env.
  by_paths h w opts; try discriminate.
  - exists 0; reflexivity.
  - exists 0; reflexivity.
  - exists 1; reflexivity.
  - exists 2; reflexivity.
  - exists 2; reflexivity.
Qed.

Lemma deployEnv_test_environment_witness :
  accepted (log (run (scripted eager) (deployEnv acme) 0)) = true /\
  exists n,
    map fst (steps (log (run (scripted eager) (deployEnv acme) 0))) =
    firstn (S n)
      [ envDeployer_DeployEnvironment
          {| archer.Environment.Project := "acme";
             archer.Environment.Name := "test";
             archer.Environment.PublicLoadBalancer := true |};
        envDeployer_WaitForEnvironmentCreation
          {| archer.Environment.Project := "acme";
             archer.Environment.Name := "test";
             archer.Environment.PublicLoadBalancer := true |};
        envStore_CreateEnvironment
          {| archer.Environment.Project := "acme";
             archer.Environment.Name := "test";
             archer.Environment.PublicLoadBalancer := true |} ].
Proof.
  split.
  - reflexivity.
  - apply (@deployEnv_test_environment nat (scripted eager) 0 acme).
    reflexivity.
Defined.

(** ** createProject *)

(** C3: createProject returns [nil] when the registry's create succeeds,
    and when it fails with an error of type ErrProjectAlreadyExists; any
    other failure of the registry is returned as it is. *)
Theorem createProject_tolerates_existing (W : Type) (h : handler W) (w : W)
        (opts : InitAppOpts) (err : option error) :
  fst (h (projStore_CreateProject {| archer.Project.Name := Project opts |}) w)
  = err ->
  (err = None -> result (run h (createProject opts) w) = None) /\
  (errors_As err isErrProjectAlreadyExists = true ->
   result (run h (createProject opts) w) = None) /\
  (forall e, err = Some e ->
             errors_As err isErrProjectAlreadyExists = false ->
             result (run h (createProject opts) w) = Some e).
Proof.
  intros Herr. unfold createProject. cbn.
  answer. cbn in Herr. subst r.
  repeat split.
  - intros ->. reflexivity.
  - intros ->. reflexivity.
  - intros e -> Hother. rewrite Hother. reflexivity.
Qed.

Lemma createProject_tolerates_existing_witness :
  result (run (scripted project_exists) (createProject acme) 0) = None.
Proof.
  apply (proj1 (proj2 (@createProject_tolerates_existing nat
           (scripted project_exists) 0 acme
           (Some (ErrProjectAlreadyExists "acme")) eq_refl))).
  reflexivity.
Defined.

(** ** Prepare *)

Lemma projectNames_app (ps : list archer.Project.t) (acc : list string) :
  fold_left (fun names p => (names ++ [archer.Project.Name p])%list) ps acc
  = (acc ++ map archer.Project.Name ps)%list.
Proof.
  revert acc. induction ps as [| p ps IH]; intros acc; simpl.
  - rewrite app_nil_r. reflexivity.
  - rewrite IH, <- app_assoc. reflexivity.
Qed.

Lemma projectNames_map (ps : list archer.Project.t) :
  projectNames ps = map archer.Project.Name ps.
Proof. unfold projectNames. rewrite projectNames_app. reflexivity. Qed.

(** C5, as amended: Prepare settles the project by priority.  A project
    name that is given stays, and no collaborator is called.  Otherwise the
    workspace is asked for its summary: when that succeeds, the project of
    the summary is taken, be it empty, and the registry is not listed.
    Otherwise, the summary having failed, the registry is listed and the
    names it gives are staged in existingProjects; the error of the listing
    is dropped and not returned, so that a failed listing that gives no
    project stages none. *)
Theorem Prepare_priority (W : Type) (h : handler W) (w : W)
        (opts : InitAppOpts) :
  (Project opts <> "" ->
   run h (Prepare opts) w = {| log := []; result := opts; world := w |}) /\
  (Project opts = "" ->
   forall summary w1,
     h ws_Summary w = ((summary, None), w1) ->
     run h (Prepare opts) w =
     {| log := [Entry ws_Summary (summary, None)];
        result :=
          set_Project (archer.WorkspaceSummary.ProjectName summary) opts;
        world := w1 |}) /\
  (Project opts = "" ->
   forall summary e w1 listed lerr w2,
     h ws_Summary w = ((summary, Some e), w1) ->
     h projStore_ListProjects w1 = ((listed, lerr), w2) ->
     run h (Prepare opts) w =
     {| log := [Entry ws_Summary (summary, Some e);
                Entry projStore_ListProjects (listed, lerr)];
        result :=
          set_existingProjects (map archer.Project.Name listed) opts;
        world := w2 |}) /\
  (Project opts = "" ->
   forall summary e w1 e' w2,
     h ws_Summary w = ((summary, Some e), w1) ->
     h projStore_ListProjects w1 = (([], Some e'), w2) ->
     existingProjects (result (run h (Prepare opts) w)) = []).
Proof.
  unfold Prepare. repeat split.
  - intros Hgiven. apply String.eqb_neq in Hgiven. rewrite Hgiven.
    reflexivity.
  - intros -> summary w1 Hws. cbn. rewrite Hws. reflexivity.
  - intros -> summary e w1 listed lerr w2 Hws Hlist. cbn.
    rewrite Hws. cbn. rewrite Hlist. cbn.
    rewrite projectNames_map. reflexivity.
  - intros -> summary e w1 e' w2 Hws Hlist. cbn.
    rewrite Hws. cbn. rewrite Hlist. reflexivity.
Qed.

Lemma Prepare_priority_witness :
  run (scripted registered) (Prepare blank) 0 =
  {| log := [ Entry ws_Summary (registered ws_Summary);
              Entry projStore_ListProjects (registered projStore_ListProjects) ];
     result := set_existingProjects ["acme"; "shop"] blank;
     world := 2 |}.
Proof.
  apply (proj1 (proj2 (proj2 (@Prepare_priority nat (scripted registered) 0
                                 blank)))
           eq_refl
           {| archer.WorkspaceSummary.ProjectName := "" |}
           (errorString "no workspace") 1
           [ {| archer.Project.Name := "acme" |};
             {| archer.Project.Name := "shop" |} ] None 2
           eq_refl eq_refl).
Defined.

(** C5, as it is written, fails twice.  A summary that succeeds and names
    no project is taken as it is, and the registry is not listed; and a
    listing that fails is not read as an empty one: the projects that come
    with the error are staged. *)
Lemma Prepare_not_as_worded :
  run (scripted unbound) (Prepare blank) 0 =
  {| log := [ Entry ws_Summary
                ({| archer.WorkspaceSummary.ProjectName := "" |}, None) ];
     result := blank;
     world := 1 |} /\
  (listed_unless_bound (scripted unbound) 0 blank -> False) /\
  In ([ {| archer.Project.Name := "acme" |} ], Some (errorString "throttled"))
     (collect listing_answer
        (log (run (scripted stale_listing) (Prepare blank) 0))) /\
  existingProjects (result (run (scripted stale_listing) (Prepare blank) 0))
  = ["acme"] /\
  (failed_listing_stages_none
     (run (scripted stale_listing) (Prepare blank) 0) -> False).
Proof.
  split; [reflexivity |].
  split.
  { intros Hlisted.
    destruct (Hlisted eq_refl
                {| archer.WorkspaceSummary.ProjectName := "" |} None 1
                eq_refl) as [[_ Hnamed] | Hin].
    - apply Hnamed. reflexivity.
    - cbn in Hin. destruct Hin as [Hin | []]. discriminate Hin. }
  split; [left; reflexivity |].
  split; [reflexivity |].
  intros Hnone.
  specialize (Hnone _ _ (or_introl eq_refl)). discriminate Hnone.
Qed.

(** C10: Prepare writes Project and existingProjects alone: the
    application's name and type and the two deploy flags are after Prepare
    what they were before, whatever the collaborators answer. *)
Theorem Prepare_frame (W : Type) (h : handler W) (w : W)
        (opts : InitAppOpts) :
  AppName (result (run h (Prepare opts) w)) = AppName opts /\
  AppType (result (run h (Prepare opts) w)) = AppType opts /\
  ShouldDeploy (result (run h (Prepare opts) w)) = ShouldDeploy opts /\
  ShouldSkipDeploy (result (run h (Prepare opts) w)) = ShouldSkipDeploy opts.
Proof.
  unfold Prepare.
  destruct (Project opts =? ""); cbn; [| repeat split].
  answer. destruct o as [e |]; cbn; [| repeat split].
  answer. repeat split.
Qed.

(** ** Validate *)

Lemma is_errValueEmpty_true (e : error) :
  is_errValueEmpty e = true <-> e = errValueEmpty.
Proof. destruct e; simpl; split; congruence. Qed.

Lemma is_errValueEmpty_false (e : error) :
  is_errValueEmpty e = false <-> e <> errValueEmpty.
Proof. destruct e; simpl; split; congruence. Qed.

(** C7: Validate returns [nil] exactly when each of the two names passes
    its rule or fails it with errValueEmpty.  A project name that fails
    with another error gives "project name invalid"; failing that, an
    application name that fails with another error gives "application name
    invalid".  With rules that reject the empty name with errValueEmpty,
    a request with both names empty is valid. *)
Theorem Validate_skips_empty (D : Decls) (opts : InitAppOpts) :
  (Validate opts = None <->
   passes_or_empty (validateProjectName (Project opts)) /\
   passes_or_empty (validateApplicationName (AppName opts))) /\
  (forall e,
      validateProjectName (Project opts) = Some e -> e <> errValueEmpty ->
      Validate opts = Some (fmtError "project name invalid: %v" e)) /\
  (forall e,
      passes_or_empty (validateProjectName (Project opts)) ->
      validateApplicationName (AppName opts) = Some e -> e <> errValueEmpty ->
      Validate opts = Some (fmtError "application name invalid: %v" e)) /\
  (validateProjectName "" = Some errValueEmpty ->
   validateApplicationName "" = Some errValueEmpty ->
   Project opts = "" -> AppName opts = "" ->
   Validate opts = None).
Proof.
  unfold Validate, passes_or_empty.
  destruct (validateProjectName (Project opts)) as [ep |] eqn:Hp;
    destruct (validateApplicationName (AppName opts)) as [ea |] eqn:Ha;
    try (destruct (is_errValueEmpty ep) eqn:Hep;
         [apply is_errValueEmpty_true in Hep
         | pose proof (proj1 (is_errValueEmpty_false ep) Hep)]);
    try (destruct (is_errValueEmpty ea) eqn:Hea;
         [apply is_errValueEmpty_true in Hea
         | pose proof (proj1 (is_errValueEmpty_false ea) Hea)]);
    subst; cbn;
    (split; [split; [intros Hv; try discriminate Hv; auto
                    | intros [[Hx | Hx] [Hy | Hy]];
                      congruence]
            |]);
    (split; [intros e He Hne; congruence |]);
    (split; [intros e [Hx | Hx] He Hne; congruence |]);
    intros Hp0 Ha0 Hproj Happ; rewrite Hproj in Hp; rewrite Happ in Ha;
    congruence.
Qed.

Lemma Validate_skips_empty_witness :
  @Validate basicDecls blank = None.
Proof.
  apply (proj2 (proj2 (proj2 (Validate_skips_empty basicDecls blank)))
           eq_refl eq_refl eq_refl eq_refl).
Defined.

(** ** The flag ShouldDeploy *)

(** C9: ShouldDeploy is read by no phase.  Set to any value [b] in a
    request, it leaves the calls of Prepare, Ask, Execute and deployEnv,
    the answers they get and the errors they return as they were (the
    request that Prepare and Ask hand on carries [b], and is otherwise the
    same), and Validate gives the same verdict.  So with ShouldDeploy set,
    no skip flag and no environment listed, the user is still asked the
    deploy confirmation. *)
Theorem ShouldDeploy_never_read (D : Decls) (W : Type) (h : handler W)
        (w : W) (opts : InitAppOpts) (b : bool) :
  run h (Prepare (set_ShouldDeploy b opts)) w =
    map_result (set_ShouldDeploy b) (run h (Prepare opts) w) /\
  run h (Ask (set_ShouldDeploy b opts)) w =
    map_result (fun r => (set_ShouldDeploy b (fst r), snd r))
               (run h (Ask opts) w) /\
  Validate (set_ShouldDeploy b opts) = Validate opts /\
  run h (Execute (set_ShouldDeploy b opts)) w = run h (Execute opts) w /\
  run h (deployEnv (set_ShouldDeploy b opts)) w = run h (deployEnv opts) w /\
  (ShouldSkipDeploy opts = false ->
   length (fst (fst (h (envStore_ListEnvironments (Project opts)) w))) = 0 ->
   In confirmDeploy
      (calls (log (run h (deployEnv (set_ShouldDeploy true opts)) w)))).
Proof.
  split; [| split; [| split; [| split; [| split]]]].
  - unfold Prepare, map_result. cbn.
    destruct (Project opts =? ""); cbn; [| reflexivity].
    answer. destruct o as [e |]; cbn; [| reflexivity].
    answer. reflexivity.
  - unfold Ask, projectQuestion, map_result. cbn.
    repeat first [ reflexivity | answer | branch ].
  - reflexivity.
  - reflexivity.
  - reflexivity.
  - intros Hskip Hnone. unfold deployEnv. cbn. rewrite Hskip. cbn.
    answer. cbn in Hnone. destruct l; [| discriminate Hnone]. cbn.
    answer. destruct b0; cbn.
    + right. left. reflexivity.
    + right. left. reflexivity.
Qed.

Lemma ShouldDeploy_never_read_witness :
  In confirmDeploy
     (calls (log (run (scripted calm)
                      (deployEnv (set_ShouldDeploy true acme)) 0))).
Proof.
  apply (proj2 (proj2 (proj2 (proj2 (proj2
           (@ShouldDeploy_never_read basicDecls nat (scripted calm) 0 acme
              true)))))).
  - reflexivity.
  - reflexivity.
Defined.


(** * Further properties of the command *)

(** ** Tools *)

Lemma collect_app (A B : Type) (view : A -> option B) (l1 l2 : list A) :
  collect view (l1 ++ l2) = (collect view l1 ++ collect view l2)%list.
Proof.
  induction l1 as [| x l1 IH]; simpl; [reflexivity |].
  destruct (view x); simpl; rewrite IH; reflexivity.
Qed.

(** A stage that passes hands over to the stages after it. *)
Lemma run_orReturn_passed (W : Type) (h : handler W)
      (c k : proc (option error)) (w : W) :
  result (run h c w) = None ->
  run h (orReturn c k) w =
  {| log := log (run h c w) ++ log (run h k (world (run h c w)));
     result := result (run h k (world (run h c w)));
     world := world (run h k (world (run h c w))) |}.
Proof.
  intros Hpass. unfold orReturn. cbn. rewrite run_bind. cbn.
  rewrite Hpass. reflexivity.
Qed.

(** Case analysis on an emptiness test, keeping what it found. *)
Ltac branch_eq :=
  match goal with
  | |- context [if (?s =? "")%string then _ else _] =>
      let E := fresh "E" in
      destruct (s =? "")%string eqn:E;
      [apply String.eqb_eq in E | apply String.eqb_neq in E]
  | |- context [match ?x with Some _ => _ | None => _ end] =>
      is_var x; destruct x
  | |- context [match Datatypes.length ?l with 0 => _ | S _ => _ end] =>
      destruct l eqn:?
  end; cbn.

(** ** Ask *)

(** X1: Ask writes a field only if it was empty: a project, an application
    name or an application type that is given stays as it is, whether Ask
    succeeds or fails, and the two deploy flags and the staged project list
    are never written. *)
Theorem Ask_writes_only_empty_fields (D : Decls) (W : Type) (h : handler W)
        (w : W) (opts : InitAppOpts) :
  let after := fst (result (run h (Ask opts) w)) in
  (Project opts <> "" -> Project after = Project opts) /\
  (AppName opts <> "" -> AppName after = AppName opts) /\
  (AppType opts <> "" -> AppType after = AppType opts) /\
  ShouldDeploy after = ShouldDeploy opts /\
  ShouldSkipDeploy after = ShouldSkipDeploy opts /\
  existingProjects after = existingProjects opts.
Proof.
  unfold Ask, projectQuestion. cbn.
  repeat first [ answer | branch_eq ];
    repeat split; intros; cbn; congruence.
Qed.

(** The failing prompt is the [n]-th one, for one of the few [n] there are. *)
Ltac failing_prompt :=
  let settle n :=
    exists n; do 2 eexists;
    split; [reflexivity | split; [reflexivity | cbn; tauto]] in
  first [ settle 0 | settle 1 | settle 2 ].

(** X2: Ask makes text and choice prompts only, three at most, and stops
    at the first one that fails: it returns [nil] when every prompt it made
    succeeded, and otherwise the error of the failing prompt, which is the
    last call made, wrapped with [%w] in one of four messages that name the
    field. *)
Theorem Ask_stops_at_first_failure (D : Decls) (W : Type) (h : handler W)
        (w : W) (opts : InitAppOpts) :
  forallb is_prompt (calls (log (run h (Ask opts) w))) = true /\
  length (log (run h (Ask opts) w)) <= 3 /\
  match snd (result (run h (Ask opts) w)) with
  | None =>
      prompt_errors (log (run h (Ask opts) w)) =
      repeat None (length (log (run h (Ask opts) w)))
  | Some e =>
      exists n format cause,
        prompt_errors (log (run h (Ask opts) w)) =
        (repeat None n ++ [Some cause])%list /\
        e = wrapError format cause /\
        In format askFormats
  end.
Proof.
  unfold Ask, projectQuestion. cbn.
  repeat first [ answer | branch ];
    (split; [reflexivity | split; [lia |]]);
    first [ reflexivity | failing_prompt ].
Qed.

(** X3: when Ask returns [nil] and every prompt it made gave a non-empty
    answer, the project, the application name and the application type
    are all set afterwards. *)
Theorem Ask_success_fills_fields (D : Decls) (W : Type) (h : handler W)
        (w : W) (opts : InitAppOpts) :
  snd (result (run h (Ask opts) w)) = None ->
  forallb answered (log (run h (Ask opts) w)) = true ->
  Project (fst (result (run h (Ask opts) w))) <> "" /\
  AppName (fst (result (run h (Ask opts) w))) <> "" /\
  AppType (fst (result (run h (Ask opts) w))) <> "".
Proof.
  unfold Ask, projectQuestion. cbn.
  repeat first [ answer | branch_eq ]; cbn; intros Hnil Hans;
    try discriminate Hnil;
    repeat match goal with
           | H : _ && _ = true |- _ => apply andb_prop in H; destruct H
           | H : negb (_ =? "") = true |- _ =>
               apply negb_true_iff, String.eqb_neq in H
           end;
    repeat split; assumption.
Qed.

Lemma Ask_success_fills_fields_witness :
  Project (fst (result (run (scripted typing) (@Ask basicDecls blank) 0)))
  <> "" /\
  AppName (fst (result (run (scripted typing) (@Ask basicDecls blank) 0)))
  <> "" /\
  AppType (fst (result (run (scripted typing) (@Ask basicDecls blank) 0)))
  <> "".
Proof.
  apply (@Ask_success_fills_fields basicDecls nat (scripted typing) 0 blank);
    reflexivity.
Defined.

(** ** Prepare, then Ask *)

(** X4: with no project given and no workspace, the projects the registry
    lists (one at least) are what the user is offered: the first three
    calls before Execute are the workspace summary, the listing, and a
    choice among the names of the listed projects, in the order of the
    listing. *)
Theorem preRun_offers_registered_projects (D : Decls) (W : Type)
        (h : handler W) (w w1 w2 : W) (opts : InitAppOpts)
        (summary : archer.WorkspaceSummary.t) (e : error)
        (listed : list archer.Project.t) (lerr : option error) :
  Project opts = "" ->
  h ws_Summary w = ((summary, Some e), w1) ->
  h projStore_ListProjects w1 = ((listed, lerr), w2) ->
  listed <> [] ->
  firstn 3 (calls (log (run h (preRun opts) w))) =
  [ ws_Summary;
    projStore_ListProjects;
    prompter_SelectOne
      "Which project should we use?"
      "Choose a project to create a new application in. Applications in the same project share the same VPC, ECS Cluster and are discoverable via service discovery"
      (map archer.Project.Name listed) ].
Proof.
  intros Hp Hws Hlist Hsome.
  unfold preRun, Prepare, Ask, projectQuestion. cbn.
  rewrite Hp. cbn. rewrite Hws. cbn. rewrite Hlist. cbn.
  rewrite Hp. cbn. rewrite projectNames_map.
  destruct listed as [| p ps]; [contradiction |]. cbn.
  answer. reflexivity.
Qed.

Lemma preRun_offers_registered_projects_witness :
  firstn 3 (calls (log (run (scripted registered) (@preRun basicDecls blank) 0)))
  = [ ws_Summary;
      projStore_ListProjects;
      prompter_SelectOne
        "Which project should we use?"
        "Choose a project to create a new application in. Applications in the same project share the same VPC, ECS Cluster and are discoverable via service discovery"
        ["acme"; "shop"] ].
Proof.
  apply (@preRun_offers_registered_projects basicDecls nat
           (scripted registered) 0 1 2 blank
           {| archer.WorkspaceSummary.ProjectName := "" |}
           (errorString "no workspace")
           [ {| archer.Project.Name := "acme" |};
             {| archer.Project.Name := "shop" |} ] None
           eq_refl eq_refl eq_refl).
  discriminate.
Defined.

(** X5: with no project given and a workspace bound to a project, that
    project is the one of the request after Prepare and Ask, whatever Ask
    returns; the summary is the first call, the registry is not listed and
    the user is asked neither of the two project questions. *)
Theorem preRun_adopts_workspace_project (D : Decls) (W : Type)
        (h : handler W) (w w1 : W) (opts : InitAppOpts)
        (summary : archer.WorkspaceSummary.t) :
  Project opts = "" ->
  h ws_Summary w = ((summary, None), w1) ->
  archer.WorkspaceSummary.ProjectName summary <> "" ->
  Project (fst (result (run h (preRun opts) w)))
  = archer.WorkspaceSummary.ProjectName summary /\
  hd_error (calls (log (run h (preRun opts) w))) = Some ws_Summary /\
  never is_ListProjects (log (run h (preRun opts) w)) = true /\
  never is_project_question (log (run h (preRun opts) w)) = true.
Proof.
  intros Hp Hws Hbound. apply String.eqb_neq in Hbound.
  unfold preRun, Prepare, Ask, projectQuestion. cbn.
  rewrite Hp. cbn. rewrite Hws. cbn. rewrite Hbound. cbn.
  repeat first [ answer | branch ]; repeat split.
Qed.

Lemma preRun_adopts_workspace_project_witness :
  Project (fst (result (run (scripted bound) (@preRun basicDecls blank) 0)))
  = "shop" /\
  hd_error (calls (log (run (scripted bound) (@preRun basicDecls blank) 0)))
  = Some ws_Summary /\
  never is_ListProjects
        (log (run (scripted bound) (@preRun basicDecls blank) 0)) = true /\
  never is_project_question
        (log (run (scripted bound) (@preRun basicDecls blank) 0)) = true.
Proof.
  apply (@preRun_adopts_workspace_project basicDecls nat (scripted bound)
           0 1 blank {| archer.WorkspaceSummary.ProjectName := "shop" |}
           eq_refl eq_refl).
  discriminate.
Defined.

(** X6: with the project, the application name and the application type
    all given, Prepare and Ask call no collaborator and leave the request
    as it is: the command runs without a question. *)
Theorem preRun_silent_when_given (D : Decls) (W : Type) (h : handler W)
        (w : W) (opts : InitAppOpts) :
  Project opts <> "" -> AppName opts <> "" -> AppType opts <> "" ->
  run h (preRun opts) w = {| log := []; result := (opts, None); world := w |}.
Proof.
  intros Hp Hn Ht.
  apply String.eqb_neq in Hp. apply String.eqb_neq in Hn.
  apply String.eqb_neq in Ht.
  unfold preRun, Prepare, Ask. cbn.
  rewrite Hp. cbn. rewrite Hp. cbn. rewrite Hn. cbn. rewrite Ht. reflexivity.
Qed.

Lemma preRun_silent_when_given_witness :
  run (scripted calm) (@preRun basicDecls acme) 0
  = {| log := []; result := (acme, None); world := 0 |}.
Proof.
  apply (@preRun_silent_when_given basicDecls nat (scripted calm) 0 acme);
    discriminate.
Defined.

(** ** Execute *)

(** A view that sees none of the entries collects nothing. *)
Lemma collect_nothing (A B : Type) (view : A -> option B) (l : list A) :
  (forall x, In x l -> view x = None) -> collect view l = [].
Proof.
  induction l as [| x l IH]; intros Hnone; simpl; [reflexivity |].
  rewrite (Hnone x (or_introl eq_refl)). apply IH.
  intros y Hy. apply Hnone. right. exact Hy.
Qed.

Lemma early_In (l : list entry) (x : entry) :
  early l = true -> In x l -> stage_rank (called x) < 4.
Proof.
  unfold early, calls. rewrite forallb_forall. intros Hall Hx.
  apply Nat.ltb_lt. apply Hall. apply in_map. exact Hx.
Qed.

Lemma early_no_step (l : list entry) : early l = true -> steps l = [].
Proof.
  intros He. apply collect_nothing. intros [c r] Hx.
  pose proof (early_In l _ He Hx) as Hr.
  destruct c; cbn in *; try reflexivity; lia.
Qed.

Lemma early_no_confirm (l : list entry) :
  early l = true -> confirm_answers l = [].
Proof.
  intros He. apply collect_nothing. intros [c r] Hx.
  pose proof (early_In l _ He Hx) as Hr.
  destruct c; cbn in *; try reflexivity; lia.
Qed.

Lemma early_no_deployment (l : list entry) :
  early l = true -> never is_deployment l = true.
Proof.
  unfold never, early. rewrite !forallb_forall. intros He c Hc.
  specialize (He c Hc). apply Nat.ltb_lt in He.
  destruct c; cbn in *; try reflexivity; lia.
Qed.

(** Case analysis on the answer to the next call, in a run that ends
    with deployEnv. *)
Tactic Notation "stage" "as" ident(r) ident(w') :=
  match goal with
  | |- context [?h ?c ?w] =>
      match type of h with
      | handler _ => destruct (h c w) as [r w'] eqn:?; cbn in r
      end
  end; cbn -[deployEnv].

(** A stage of Execute failed: the run ends there. *)
Ltac stage_failed :=
  cbn -[deployEnv];
  split; [reflexivity |];
  split; [reflexivity |];
  left; eexists;
  split; [reflexivity |];
  split; [reflexivity |];
  cbn;
  try match goal with
      | H : _ = Some 0 |- _ => rewrite H
      end;
  reflexivity.

(** The runs of Execute.  The calls made before deployEnv, the first four
    of the log at most, are the stages in their order; either one of them
    failed and Execute ends there with an error, or the four of them
    passed and Execute goes on as deployEnv does. *)
Lemma Execute_runs (D : Decls) (W : Type) (h : handler W) (w : W)
      (opts : InitAppOpts) :
  let pre := firstn 4 (log (run h (Execute opts) w)) in
  early pre = true /\
  map stage_rank (calls pre) = firstn (length pre) [0; 1; 2; 3] /\
  ((exists e,
       log (run h (Execute opts) w) = pre /\
       result (run h (Execute opts) w) = Some e /\
       collect stage_passed pre = firstn (length pre - 1) [0; 1; 2; 3])
   \/
   (exists w',
       collect stage_passed pre = [0; 1; 2; 3] /\
       log (run h (Execute opts) w) =
         (pre ++ log (run h (deployEnv opts) w'))%list /\
       result (run h (Execute opts) w) =
         result (run h (deployEnv opts) w'))).
Proof.
  unfold Execute, orReturn, createProject, createApp.
  cbn -[deployEnv].
  destruct (validateProjectName (Project opts)) as [e |];
    [stage_failed | cbn -[deployEnv]].
  stage as created w1.
  assert (Hproject :
            (exists e, created = Some e /\
                       errors_As created isErrProjectAlreadyExists = false)
            \/ (stage_passed
                  (Entry (projStore_CreateProject
                            {| archer.Project.Name := Project opts |})
                         created)
                = Some 0
                /\ (if negb (errors_As created isErrProjectAlreadyExists)
                    then created else None) = None)).
  { destruct created as [e |]; cbn.
    - destruct (As_chain isErrProjectAlreadyExists e).
      + right. split; reflexivity.
      + left. exists e. split; reflexivity.
    - right. split; reflexivity. }
  destruct Hproject as [[e [-> Hother]] | [Hpassed Hnil]].
  { rewrite Hother. stage_failed. }
  cbn in Hpassed.
  assert (Hgo :
            forall k : option error -> proc (option error),
              proc_bind
                (if negb (errors_As created isErrProjectAlreadyExists)
                 then Ret created else Ret None) k
              = k None).
  { intros k.
    destruct (negb (errors_As created isErrProjectAlreadyExists));
      [rewrite Hnil |]; reflexivity. }
  rewrite !Hgo. cbn -[deployEnv].
  stage as initialised w2.
  destruct initialised as [e |]; [stage_failed | cbn -[deployEnv]].
  stage as made w3. destruct made as [m merr].
  destruct merr as [e |]; [stage_failed | cbn -[deployEnv]].
  destruct (archer.Manifest.Marshal m) as [bytes berr] eqn:Hm.
  destruct berr as [e |]; [stage_failed | cbn -[deployEnv]].
  stage as written w4.
  destruct written as [e |]; [stage_failed | cbn -[deployEnv]].
  repeat split. right. exists w4.
  split; [| split; reflexivity].
  cbn. rewrite Hpassed. reflexivity.
Qed.

(** What the part of a log that deployEnv wrote looks like. *)
Lemma deployEnv_log (W : Type) (h : handler W) (w : W) (opts : InitAppOpts) :
  map stage_rank (calls (log (run h (deployEnv opts) w)))
  = repeat 4 (length (log (run h (deployEnv opts) w))) /\
  collect stage_passed (log (run h (deployEnv opts) w)) = [] /\
  (ShouldSkipDeploy opts = true -> log (run h (deployEnv opts) w) = []) /\
  (accepted (log (run h (deployEnv opts) w)) = false ->
   steps (log (run h (deployEnv opts) w)) = []) /\
  (forall env,
      In (envStore_CreateEnvironment env)
         (calls (log (run h (deployEnv opts) w))) ->
      accepted (log (run h (deployEnv opts) w)) = true /\
      In (envDeployer_DeployEnvironment env, None)
         (steps (log (run h (deployEnv opts) w))) /\
      In (envDeployer_WaitForEnvironmentCreation env, None)
         (steps (log (run h (deployEnv opts) w)))).
Proof.
  by_paths h w opts;
    (split; [reflexivity |]); (split; [reflexivity |]);
    (split; [intros; first [reflexivity | congruence] |]);
    (split; [intros; first [reflexivity | discriminate] |]);
    intros env Hreg;
    repeat match goal with
           | H : _ \/ _ |- _ => destruct H
           | H : False |- _ => destruct H
           | H : _ = envStore_CreateEnvironment _ |- _ =>
               first [discriminate H | injection H as <-]
           end;
    (split; [reflexivity | split; cbn; tauto]).
Qed.

Lemma never_app (p : call -> bool) (l1 l2 : list entry) :
  never p (l1 ++ l2) = never p l1 && never p l2.
Proof. unfold never, calls. rewrite map_app, forallb_app. reflexivity. Qed.

(** X7: Execute first checks the project with validateProjectName and,
    on any error, returns it as it is without calling a collaborator.  The
    error for an empty name is no exception, so a request with no project
    that Validate accepts is refused by Execute. *)
Theorem Execute_checks_project_first (D : Decls) (W : Type) (h : handler W)
        (w : W) (opts : InitAppOpts) (e : error) :
  validateProjectName (Project opts) = Some e ->
  run h (Execute opts) w = {| log := []; result := Some e; world := w |} /\
  (e = errValueEmpty ->
   validateApplicationName (AppName opts) = None ->
   Validate opts = None).
Proof.
  intros Hbad. split.
  - unfold Execute, orReturn. cbn -[deployEnv]. rewrite Hbad. reflexivity.
  - intros -> Happ. unfold Validate. rewrite Hbad, Happ. reflexivity.
Qed.

Lemma Execute_checks_project_first_witness :
  run (scripted calm) (@Execute basicDecls (set_Project "" acme)) 0
  = {| log := []; result := Some errValueEmpty; world := 0 |} /\
  (errValueEmpty = errValueEmpty ->
   @validateApplicationName basicDecls (AppName (set_Project "" acme)) = None ->
   @Validate basicDecls (set_Project "" acme) = None).
Proof.
  apply (@Execute_checks_project_first basicDecls nat (scripted calm) 0
           (set_Project "" acme) errValueEmpty).
  reflexivity.
Defined.

(** X8: the calls of Execute come stage by stage: the registration of the
    project, the creation of the workspace, the generation of the manifest,
    the writing of the manifest, each once at most and in that order, and
    then the calls of deployEnv, which are made only after the four stages
    before it. *)
Theorem Execute_stage_order (D : Decls) (W : Type) (h : handler W) (w : W)
        (opts : InitAppOpts) :
  exists n m,
    map stage_rank (calls (log (run h (Execute opts) w)))
    = (firstn n [0; 1; 2; 3] ++ repeat 4 m)%list /\
    (0 < m -> n = 4).
Proof.
  destruct (Execute_runs D h w opts) as [_ [Hranks [Hfail | Hgo]]].
  - destruct Hfail as [e [Hlog _]].
    exists (length (firstn 4 (log (run h (Execute opts) w)))), 0.
    split; [| lia].
    rewrite Hlog at 1. rewrite Hranks, app_nil_r. reflexivity.
  - destruct Hgo as [w' [Hpassed [Hlog _]]].
    exists 4, (length (log (run h (deployEnv opts) w'))).
    split; [| reflexivity].
    rewrite Hlog. unfold calls. rewrite !map_app. fold (calls (log (run h (deployEnv opts) w'))).
    rewrite (proj1 (deployEnv_log h w' opts)).
    f_equal. fold (calls (firstn 4 (log (run h (Execute opts) w)))).
    rewrite Hranks.
    assert (Hlen : length (firstn 4 (log (run h (Execute opts) w))) = 4).
    { apply Nat.le_antisymm; [apply firstn_le_length |].
      change 4 with (length [0; 1; 2; 3]) at 1. rewrite <- Hpassed.
      clear. induction (firstn 4 (log (run h (Execute opts) w)))
        as [| x l IH]; simpl; [lia |].
      destruct (stage_passed x); simpl; lia. }
    rewrite Hlen. reflexivity.
Qed.

Lemma firstn_shorter (k : list entry) :
  length k <= 4 ->
  collect stage_passed k = firstn (length k - 1) [0; 1; 2; 3] ->
  collect stage_passed k <> [0; 1; 2; 3].
Proof.
  intros Hlen -> Hall.
  apply (f_equal (@length nat)) in Hall.
  rewrite length_firstn in Hall. cbn in Hall. lia.
Qed.

(** X9: Execute goes on to deployEnv exactly when the four stages before
    it passed: the project registered or already there, the workspace
    created, the manifest generated and marshalled, the manifest written.
    Then it returns what deployEnv returns.  Otherwise it returns an error,
    and makes no call on the environment store or the deployer and asks no
    confirmation. *)
Theorem Execute_reaches_deployEnv (D : Decls) (W : Type) (h : handler W)
        (w : W) (opts : InitAppOpts) :
  (collect stage_passed (log (run h (Execute opts) w)) = [0; 1; 2; 3] ->
   exists w',
     log (run h (Execute opts) w) =
       (firstn 4 (log (run h (Execute opts) w))
        ++ log (run h (deployEnv opts) w'))%list /\
     result (run h (Execute opts) w) = result (run h (deployEnv opts) w')) /\
  (collect stage_passed (log (run h (Execute opts) w)) <> [0; 1; 2; 3] ->
   (exists e, result (run h (Execute opts) w) = Some e) /\
   never is_deployment (log (run h (Execute opts) w)) = true).
Proof.
  destruct (Execute_runs D h w opts) as [Hearly [_ [Hfail | Hgo]]].
  - destruct Hfail as [e [Hlog [Hres Hpassed]]].
    assert (Hnot : collect stage_passed (log (run h (Execute opts) w))
                   <> [0; 1; 2; 3]).
    { rewrite Hlog. apply firstn_shorter; [| exact Hpassed].
      apply firstn_le_length. }
    split; [intros Hall; contradiction |].
    intros _. split; [exists e; exact Hres |].
    rewrite Hlog. apply early_no_deployment. exact Hearly.
  - destruct Hgo as [w' [Hpassed [Hlog Hres]]].
    split.
    + intros _. exists w'. split; assumption.
    + intros Hnot. exfalso. apply Hnot.
      rewrite Hlog, collect_app, Hpassed.
      rewrite (proj1 (proj2 (deployEnv_log h w' opts))). reflexivity.
Qed.

(** X10: with ShouldSkipDeploy set, Execute makes no call on the
    environment store or the deployer and asks no confirmation, whatever
    the collaborators answer. *)
Theorem Execute_skip_deploy (D : Decls) (W : Type) (h : handler W) (w : W)
        (opts : InitAppOpts) :
  ShouldSkipDeploy opts = true ->
  never is_deployment (log (run h (Execute opts) w)) = true.
Proof.
  intros Hskip.
  destruct (Execute_runs D h w opts) as [Hearly [_ [Hfail | Hgo]]].
  - destruct Hfail as [e [Hlog _]]. rewrite Hlog.
    apply early_no_deployment. exact Hearly.
  - destruct Hgo as [w' [_ [Hlog _]]]. rewrite Hlog, never_app.
    rewrite (early_no_deployment _ Hearly).
    destruct (deployEnv_log h w' opts) as [_ [_ [Hnone _]]].
    rewrite (Hnone Hskip). reflexivity.
Qed.

Lemma Execute_skip_deploy_witness :
  never is_deployment
    (log (run (scripted eager)
              (@Execute basicDecls
                 {| Project := "acme"; AppName := "api";
                    AppType := "Load Balanced Web App";
                    ShouldDeploy := true; ShouldSkipDeploy := true;
                    existingProjects := [] |}) 0)) = true.
Proof.
  apply (@Execute_skip_deploy basicDecls nat (scripted eager) 0).
  reflexivity.
Defined.

(** X11: Execute registers an environment last of all: when the
    environment store's create is called, the four stages before deployEnv
    have passed, the user has said yes, and begin-deploy and
    wait-for-completion have both succeeded for that same environment. *)
Theorem Execute_registers_last (D : Decls) (W : Type) (h : handler W)
        (w : W) (opts : InitAppOpts) (env : archer.Environment.t) :
  In (envStore_CreateEnvironment env) (calls (log (run h (Execute opts) w))) ->
  collect stage_passed (log (run h (Execute opts) w)) = [0; 1; 2; 3] /\
  accepted (log (run h (Execute opts) w)) = true /\
  In (envDeployer_DeployEnvironment env, None)
     (steps (log (run h (Execute opts) w))) /\
  In (envDeployer_WaitForEnvironmentCreation env, None)
     (steps (log (run h (Execute opts) w))).
Proof.
  intros Hreg.
  destruct (Execute_runs D h w opts) as [Hearly [_ [Hfail | Hgo]]].
  - exfalso. destruct Hfail as [e [Hlog _]]. rewrite Hlog in Hreg.
    pose proof (early_no_deployment _ Hearly) as Hnone.
    unfold never in Hnone. rewrite forallb_forall in Hnone.
    specialize (Hnone _ Hreg). discriminate Hnone.
  - destruct Hgo as [w' [Hpassed [Hlog _]]].
    destruct (deployEnv_log h w' opts) as [_ [Hstages [_ [_ Hafter]]]].
    assert (Hin : In (envStore_CreateEnvironment env)
                     (calls (log (run h (deployEnv opts) w')))).
    { rewrite Hlog in Hreg. unfold calls in Hreg.
      rewrite map_app in Hreg. apply in_app_or in Hreg.
      destruct Hreg as [Hpre | Hd]; [| exact Hd].
      exfalso.
      pose proof (early_no_deployment _ Hearly) as Hnone.
      unfold never in Hnone. rewrite forallb_forall in Hnone.
      specialize (Hnone _ Hpre). discriminate Hnone. }
    destruct (Hafter env Hin) as [Hyes [Hbegin Hwait]].
    rewrite Hlog. unfold accepted, confirm_answers, steps.
    rewrite !collect_app.
    fold (confirm_answers (firstn 4 (log (run h (Execute opts) w)))).
    fold (steps (firstn 4 (log (run h (Execute opts) w)))).
    rewrite (early_no_confirm _ Hearly), (early_no_step _ Hearly).
    rewrite Hpassed, Hstages. cbn [app].
    repeat split; assumption.
Qed.

Lemma Execute_registers_last_witness :
  collect stage_passed
    (log (run (scripted eager) (@Execute basicDecls acme) 0)) = [0; 1; 2; 3] /\
  accepted (log (run (scripted eager) (@Execute basicDecls acme) 0)) = true /\
  In (envDeployer_DeployEnvironment (testEnvironment acme), None)
     (steps (log (run (scripted eager) (@Execute basicDecls acme) 0))) /\
  In (envDeployer_WaitForEnvironmentCreation (testEnvironment acme), None)
     (steps (log (run (scripted eager) (@Execute basicDecls acme) 0))).
Proof.
  apply (@Execute_registers_last basicDecls nat (scripted eager) 0 acme
           (testEnvironment acme)).
  vm_compute. tauto.
Defined.

(** X12: Execute deploys nothing the user did not agree to: in a run
    where no deploy confirmation was answered with yes, none of
    begin-deploy, wait-for-completion and the registration of an
    environment is called. *)
Theorem Execute_needs_consent (D : Decls) (W : Type) (h : handler W)
        (w : W) (opts : InitAppOpts) :
  accepted (log (run h (Execute opts) w)) = false ->
  steps (log (run h (Execute opts) w)) = [].
Proof.
  destruct (Execute_runs D h w opts) as [Hearly [_ [Hfail | Hgo]]].
  - destruct Hfail as [e [Hlog _]]. intros _. rewrite Hlog.
    apply early_no_step. exact Hearly.
  - destruct Hgo as [w' [_ [Hlog _]]]. rewrite Hlog.
    unfold accepted, confirm_answers, steps. rewrite !collect_app.
    fold (confirm_answers (firstn 4 (log (run h (Execute opts) w)))).
    fold (steps (firstn 4 (log (run h (Execute opts) w)))).
    rewrite (early_no_confirm _ Hearly), (early_no_step _ Hearly).
    cbn [app]. intros Hno.
    destruct (deployEnv_log h w' opts) as [_ [_ [_ [Hconsent _]]]].
    apply Hconsent. exact Hno.
Qed.

Lemma Execute_needs_consent_witness :
  steps (log (run (scripted calm) (@Execute basicDecls acme) 0)) = [].
Proof.
  apply (@Execute_needs_consent basicDecls nat (scripted calm) 0 acme).
  reflexivity.
Defined.

(** ** deployEnv, createProject and createApp *)

(** X13: deployEnv never leaves the progress indicator running: in every
    run each Start is followed by its Stop before the next Start or the
    return, and a Stop labelled "Error!" is shown exactly in the runs that
    return an error. *)
Theorem deployEnv_spinner_bracketed (W : Type) (h : handler W) (w : W)
        (opts : InitAppOpts) :
  bracketed (spinner (log (run h (deployEnv opts) w))) = true /\
  (In (false, "Error!") (spinner (log (run h (deployEnv opts) w))) <->
   result (run h (deployEnv opts) w) <> None).
Proof.
  by_paths h w opts;
    (split; [reflexivity |]);
    (split;
     [ intros Hshown;
       repeat match goal with
              | H : _ \/ _ |- _ => destruct H
              | H : False |- _ => destruct H
              | H : (_, _) = (_, _) |- _ => discriminate H
              end;
       discriminate
     | intros Herr; first [congruence | tauto] ]).
Qed.

(** X14: an error of deployEnv is always the error of the last deployment
    step it made, after a yes of the user; an error of the listing of
    environments or of the confirmation prompt is never returned. *)
Theorem deployEnv_error_is_last_step (W : Type) (h : handler W) (w : W)
        (opts : InitAppOpts) (e : error) :
  result (run h (deployEnv opts) w) = Some e ->
  accepted (log (run h (deployEnv opts) w)) = true /\
  exists before c,
    steps (log (run h (deployEnv opts) w)) = (before ++ [(c, Some e)])%list /\
    Forall (fun s => snd s = None) before.
Proof.
  intros Herr.
  by_paths h w opts; try discriminate Herr;
    injection Herr as ->;
    (split; [reflexivity |]);
    [ exists []
    | exists [(envDeployer_DeployEnvironment (testEnvironment opts), None)]
    | exists [(envDeployer_DeployEnvironment (testEnvironment opts), None);
              (envDeployer_WaitForEnvironmentCreation (testEnvironment opts),
               None)] ];
    eexists; (split; [reflexivity |]); repeat constructor.
Qed.

Lemma deployEnv_error_is_last_step_witness :
  accepted (log (run (scripted wait_fails) (deployEnv acme) 0)) = true /\
  exists before c,
    steps (log (run (scripted wait_fails) (deployEnv acme) 0))
    = (before ++ [(c, Some (errorString "stack creation failed"))])%list /\
    Forall (fun s => snd s = None) before.
Proof.
  apply (@deployEnv_error_is_last_step nat (scripted wait_fails) 0 acme
           (errorString "stack creation failed")).
  reflexivity.
Defined.

Lemma As_chain_wrapped (target : error -> bool) (formats : list string)
      (cause : error) :
  target cause = true -> As_chain target (wrapped formats cause) = true.
Proof.
  intros Hcause. induction formats as [| f formats IH]; simpl.
  - destruct cause; simpl; rewrite Hcause; reflexivity.
  - rewrite IH. apply orb_true_r.
Qed.

(** X15: createProject recognises a project that exists already however
    deep the registry wrapped the error with [%w], and returns [nil]; an
    error that only quotes its cause with [%v] is not seen through, and is
    returned as a failure even when the cause is ErrProjectAlreadyExists. *)
Theorem createProject_sees_through_wrapping (W : Type) (h : handler W)
        (w : W) (opts : InitAppOpts) :
  (forall formats name,
      fst (h (projStore_CreateProject
                {| archer.Project.Name := Project opts |}) w)
      = Some (wrapped formats (ErrProjectAlreadyExists name)) ->
      result (run h (createProject opts) w) = None) /\
  (forall format cause,
      fst (h (projStore_CreateProject
                {| archer.Project.Name := Project opts |}) w)
      = Some (fmtError format cause) ->
      result (run h (createProject opts) w) = Some (fmtError format cause)).
Proof.
  unfold createProject. cbn. split.
  - intros formats name Hanswer. answer. cbn in Hanswer. subst r. cbn.
    rewrite As_chain_wrapped; reflexivity.
  - intros format cause Hanswer. answer. cbn in Hanswer. subst r.
    reflexivity.
Qed.


(** ** Prepare, then Ask: when no project is found *)

(** X17: with no project given, no workspace and a registry that lists no
    project (with or without an error), the user is asked to type the
    project's name, checked by validateProjectName: this is the third call
    before Execute, after the summary and the listing. *)
Theorem preRun_asks_name_when_none_registered (D : Decls) (W : Type)
        (h : handler W) (w w1 w2 : W) (opts : InitAppOpts)
        (summary : archer.WorkspaceSummary.t) (e : error)
        (lerr : option error) :
  Project opts = "" ->
  h ws_Summary w = ((summary, Some e), w1) ->
  h projStore_ListProjects w1 = (([], lerr), w2) ->
  firstn 3 (calls (log (run h (preRun opts) w))) =
  [ ws_Summary;
    projStore_ListProjects;
    prompter_Get
      "What is your project's name?"
      "Applications under the same project share the same VPC and ECS Cluster and are discoverable via service discovery."
      validateProjectName ].
Proof.
  intros Hp Hws Hlist.
  unfold preRun, Prepare, Ask, projectQuestion. cbn.
  rewrite Hp. cbn. rewrite Hws. cbn. rewrite Hlist. cbn.
  rewrite Hp. cbn. answer. reflexivity.
Qed.

Lemma preRun_asks_name_when_none_registered_witness :
  firstn 3 (calls (log (run (scripted calm) (@preRun basicDecls blank) 0))) =
  [ ws_Summary;
    projStore_ListProjects;
    prompter_Get
      "What is your project's name?"
      "Applications under the same project share the same VPC and ECS Cluster and are discoverable via service discovery."
      (@validateProjectName basicDecls) ].
Proof.
  apply (@preRun_asks_name_when_none_registered basicDecls nat (scripted calm)
           0 1 2 blank {| archer.WorkspaceSummary.ProjectName := "" |}
           (errorString "no workspace") None eq_refl eq_refl eq_refl).
Defined.

(** X18: a workspace summary that succeeds with an empty project name is
    taken as it is: the registry is not listed, no project is staged, and
    the user is asked to type the project's name right after the
    summary. *)
Theorem preRun_empty_workspace_project (D : Decls) (W : Type)
        (h : handler W) (w w1 : W) (opts : InitAppOpts)
        (summary : archer.WorkspaceSummary.t) :
  Project opts = "" ->
  existingProjects opts = [] ->
  h ws_Summary w = ((summary, None), w1) ->
  archer.WorkspaceSummary.ProjectName summary = "" ->
  firstn 2 (calls (log (run h (preRun opts) w))) =
  [ ws_Summary;
    prompter_Get
      "What is your project's name?"
      "Applications under the same project share the same VPC and ECS Cluster and are discoverable via service discovery."
      validateProjectName ] /\
  never is_ListProjects (log (run h (preRun opts) w)) = true /\
  existingProjects (fst (result (run h (preRun opts) w))) = [].
Proof.
  intros Hp Hstaged Hws Hempty.
  unfold preRun, Prepare, Ask, projectQuestion. cbn.
  rewrite Hp. cbn. rewrite Hws. cbn. rewrite Hempty, Hstaged. cbn.
  repeat first [ answer | branch ]; repeat split; assumption.
Qed.

Lemma preRun_empty_workspace_project_witness :
  firstn 2 (calls (log (run (scripted unbound) (@preRun basicDecls blank) 0)))
  = [ ws_Summary;
      prompter_Get
        "What is your project's name?"
        "Applications under the same project share the same VPC and ECS Cluster and are discoverable via service discovery."
        (@validateProjectName basicDecls) ] /\
  never is_ListProjects
        (log (run (scripted unbound) (@preRun basicDecls blank) 0)) = true /\
  existingProjects
    (fst (result (run (scripted unbound) (@preRun basicDecls blank) 0))) = [].
Proof.
  apply (@preRun_empty_workspace_project basicDecls nat (scripted unbound)
           0 1 blank {| archer.WorkspaceSummary.ProjectName := "" |}
           eq_refl eq_refl eq_refl eq_refl).
Defined.
